(** * TikTok Ads creative demo: OAuth lifecycle, error classifier,
      remote gateway and form validation

    A shallow embedding of the TypeScript services of the repository

      - [src/services/oauth.ts]       (module [oauth])
      - [src/utils/errorMessages.ts]  (module [errorMessages])
      - [src/services/tiktokApi.ts]   (module [tiktokApi])
      - [src/services/validation.ts]  (module [validation])
      - [src/utils/constants.ts]      (module [constants])

    together with the part of the JavaScript platform they run on
    (values, strings, [JSON], Web Storage, [fetch]).

    Conventions of the embedding.

    - A JavaScript string is its sequence of code units; the embedding
      has the code units below 256, one [ascii] each.
    - A JavaScript number is an integer of [Z]. The numbers of the
      services are epoch milliseconds, lifetimes in seconds, byte sizes
      and server codes, all integers far below 2^53, where the
      arithmetic of doubles is exact.
    - A function that can throw returns a [Completion]; an [async]
      function is run to its settlement, [Return] for a fulfilled
      promise and [Throw] for a rejected one. Timers only delay and
      are not represented, nor is console output.
    - The browser is a [World] (the two storages, the clock, the log of
      requests, the location) threaded through the calls; the build
      settings and the remote servers are an [Env]. *)

From Stdlib Require Import ZArith Ascii String List Bool Lia.
From Stdlib Require Import DecimalString DecimalN DecimalPos DecimalZ.
From stdpp Require Import gmap strings.

Local Open Scope string_scope.

(** ** String methods *)

Module Str.

Definition code (c : ascii) : N := N_of_ascii c.

(** WhiteSpace and LineTerminator code units below 256. *)
Definition is_space (c : ascii) : bool :=
  let n := code c in
  ((9 <=? n) && (n <=? 13) || (n =? 32) || (n =? 160))%N.

Fixpoint trimStart (s : string) : string :=
  match s with
  | String c r => if is_space c then trimStart r else s
  | EmptyString => EmptyString
  end.

(** Drops the white space that ends [s]. *)
Fixpoint trimEnd (s : string) : string :=
  match s with
  | EmptyString => EmptyString
  | String c r =>
      match trimEnd r with
      | EmptyString => if is_space c then EmptyString else String c EmptyString
      | r' => String c r'
      end
  end.

(** [s.trim()]. *)
Definition trim (s : string) : string := trimEnd (trimStart s).

Fixpoint startsWith (p s : string) : bool :=
  match p, s with
  | EmptyString, _ => true
  | String a p', String b s' => Ascii.eqb a b && startsWith p' s'
  | String _ _, EmptyString => false
  end.

(** [s.includes(p)]. *)
Fixpoint includes (p s : string) : bool :=
  startsWith p s ||
  match s with
  | EmptyString => false
  | String _ s' => includes p s'
  end.

(** Lower case of a code unit below 256: A-Z, and the Latin-1 capitals
    except the multiplication sign. *)
Definition lower (c : ascii) : ascii :=
  let n := code c in
  if ((65 <=? n) && (n <=? 90) || (192 <=? n) && (n <=? 222) && negb (n =? 215))%N
  then ascii_of_N (n + 32) else c.

(** [s.toLowerCase()]. *)
Fixpoint toLowerCase (s : string) : string :=
  match s with
  | EmptyString => EmptyString
  | String c r => String (lower c) (toLowerCase r)
  end.

(** [l.join(sep)] on strings. *)
Fixpoint join (sep : string) (l : list string) : string :=
  match l with
  | [] => ""
  | [x] => x
  | x :: rest => x +:+ sep +:+ join sep rest
  end.

(** [/^[0-9]+$/.test(s) || s === ""]. *)
Fixpoint all_digits (s : string) : bool :=
  match s with
  | EmptyString => true
  | String c r => ((48 <=? code c) && (code c <=? 57))%N && all_digits r
  end.

(** [n.toString()] for an integer, which is also its text in JSON. *)
Definition of_Z (n : Z) : string := NilZero.string_of_int (Z.to_int n).

(** One hexadecimal digit, lower case. *)
Definition hex_digit (n : N) : ascii :=
  if (n <? 10)%N then ascii_of_N (48 + n) else ascii_of_N (87 + n).

(** [n.toString(16).padStart(2, "0")] for [n] below 256. *)
Definition hex2 (n : N) : string :=
  String (hex_digit (n / 16)) (String (hex_digit (n mod 16)) EmptyString).

End Str.

(** ** JavaScript values *)

Module Js.

(** The classes whose instances the services tell apart with
    [instanceof]; [CObject] is a plain object (an object literal, or an
    object read from JSON). *)
Inductive Class := CObject | CError | CTypeError | CSyntaxError | CDOMException.

(** [VObj cls props]: [props] are the properties in enumeration order,
    with distinct keys. Function-valued properties (methods) are not
    values of the embedding; the methods the services call are the
    functions below. *)
#[local] Unset Elimination Schemes.
Inductive JsVal :=
| VUndefined
| VNull
| VBool (b : bool)
| VNum (n : Z)
| VStr (s : string)
| VArr (elems : list JsVal)
| VObj (cls : Class) (props : list (string * JsVal)).
#[local] Set Elimination Schemes.

(** How a call ends: with a value, or with a thrown value. *)
Inductive Completion (A : Type) :=
| Return (a : A)
| Throw (e : JsVal).
Arguments Return {A} a.
Arguments Throw {A} e.

Definition bind {A B} (c : Completion A) (k : A -> Completion B) : Completion B :=
  match c with
  | Return a => k a
  | Throw e => Throw e
  end.

Definition instanceof_Error (v : JsVal) : bool :=
  match v with
  | VObj CObject _ => false
  | VObj _ _ => true
  | _ => false
  end.

Definition instanceof_TypeError (v : JsVal) : bool :=
  match v with
  | VObj CTypeError _ => true
  | _ => false
  end.

(** [new TypeError(msg)], [new Error(msg)], [new SyntaxError(msg)]. *)
Definition TypeError (msg : string) : JsVal := VObj CTypeError [("message", VStr msg)].
Definition Error (msg : string) : JsVal := VObj CError [("message", VStr msg)].

(** The exception [Storage.setItem] throws when the quota is exceeded. *)
Definition QuotaExceededError : JsVal :=
  VObj CDOMException
    [("name", VStr "QuotaExceededError");
     ("message", VStr "The quota has been exceeded.");
     ("code", VNum 22)].

Fixpoint assoc (k : string) (props : list (string * JsVal)) : option JsVal :=
  match props with
  | [] => None
  | (k', v) :: rest => if String.eqb k k' then Some v else assoc k rest
  end.

(** [obj[k] = v] on the property list: an existing key keeps its place. *)
Fixpoint assoc_set (k : string) (v : JsVal) (props : list (string * JsVal))
  : list (string * JsVal) :=
  match props with
  | [] => [(k, v)]
  | (k', v') :: rest =>
      if String.eqb k k' then (k, v) :: rest else (k', v') :: assoc_set k v rest
  end.

(** The data properties an instance inherits from its prototype. *)
Definition inherited (cls : Class) (k : string) : option JsVal :=
  match cls with
  | CObject => None
  | CError =>
      if String.eqb k "message" then Some (VStr "")
      else if String.eqb k "name" then Some (VStr "Error") else None
  | CTypeError =>
      if String.eqb k "message" then Some (VStr "")
      else if String.eqb k "name" then Some (VStr "TypeError") else None
  | CSyntaxError =>
      if String.eqb k "message" then Some (VStr "")
      else if String.eqb k "name" then Some (VStr "SyntaxError") else None
  | CDOMException =>
      if String.eqb k "message" then Some (VStr "")
      else if String.eqb k "name" then Some (VStr "Error")
      else if String.eqb k "code" then Some (VNum 0) else None
  end.

(** [v.k] for a key [k] that is neither an index nor the name of a
    method: reading a property of [undefined] or [null] throws. *)
Definition get (v : JsVal) (k : string) : Completion JsVal :=
  match v with
  | VUndefined => Throw (TypeError ("Cannot read properties of undefined (reading '" +:+ k +:+ "')"))
  | VNull => Throw (TypeError ("Cannot read properties of null (reading '" +:+ k +:+ "')"))
  | VBool _ | VNum _ => Return VUndefined
  | VStr s =>
      if String.eqb k "length" then Return (VNum (Z.of_nat (String.length s)))
      else Return VUndefined
  | VArr l =>
      if String.eqb k "length" then Return (VNum (Z.of_nat (List.length l)))
      else Return VUndefined
  | VObj cls props =>
      match assoc k props with
      | Some x => Return x
      | None =>
          match inherited cls k with
          | Some x => Return x
          | None => Return VUndefined
          end
      end
  end.

(** [v?.k]. *)
Definition get_opt (v : JsVal) (k : string) : JsVal :=
  match v with
  | VUndefined | VNull => VUndefined
  | _ => match get v k with Return x => x | Throw _ => VUndefined end
  end.

(** [typeof v === "object"]. *)
Definition typeof_object (v : JsVal) : bool :=
  match v with
  | VNull | VArr _ | VObj _ _ => true
  | _ => false
  end.

(** [k in v], for [v] an object (the operator throws on a primitive). *)
Definition has (k : string) (v : JsVal) : bool :=
  match v with
  | VObj cls props =>
      match assoc k props with
      | Some _ => true
      | None => match inherited cls k with Some _ => true | None => false end
      end
  | VArr l => String.eqb k "length"
  | _ => false
  end.

(** ToBoolean. *)
Definition truthy (v : JsVal) : bool :=
  match v with
  | VUndefined | VNull => false
  | VBool b => b
  | VNum n => negb (n =? 0)%Z
  | VStr s => negb (String.eqb s "")
  | VArr _ | VObj _ _ => true
  end.

(** [a || b]. *)
Definition or_else (a b : JsVal) : JsVal := if truthy a then a else b.

(** [v === "s"]. *)
Definition strict_eq_str (v : JsVal) (s : string) : bool :=
  match v with
  | VStr s' => String.eqb s' s
  | _ => false
  end.

(** [v === n]. *)
Definition strict_eq_num (v : JsVal) (n : Z) : bool :=
  match v with
  | VNum n' => (n' =? n)%Z
  | _ => false
  end.

(** Whether the own property [k] of an instance of [cls] is enumerable,
    so that [JSON.stringify] and object spread see it: of an error
    instance, [message] and [stack] are not, and a DOMException has
    accessors only. *)
Definition is_enumerable (cls : Class) (k : string) : bool :=
  match cls with
  | CObject => true
  | CDOMException => false
  | _ => negb (String.eqb k "message" || String.eqb k "stack")
  end.

Definition enumerable (cls : Class) (props : list (string * JsVal))
  : list (string * JsVal) :=
  filter (fun kv => is_enumerable cls (fst kv)) props.

(** [v.toString()], and ToString. An array joins its elements, with
    nothing for [null] and [undefined]; an error instance gives its
    name and message. *)
Fixpoint toString (v : JsVal) : string :=
  match v with
  | VUndefined => "undefined"
  | VNull => "null"
  | VBool true => "true"
  | VBool false => "false"
  | VNum n => Str.of_Z n
  | VStr s => s
  | VArr l =>
      Str.join ","
        (map (fun e => match e with VUndefined | VNull => "" | _ => toString e end) l)
  | VObj CObject _ => "[object Object]"
  | VObj cls props =>
      let field (k : string) : option string :=
        (fix find (ps : list (string * JsVal)) : option string :=
           match ps with
           | [] => match inherited cls k with
                   | Some (VStr d) => Some d
                   | _ => None
                   end
           | (k', x) :: rest =>
               if String.eqb k k'
               then match x with VUndefined => None | _ => Some (toString x) end
               else find rest
           end) props in
      let name := default "Error" (field "name") in
      let msg := default "" (field "message") in
      if String.eqb name "" then msg
      else if String.eqb msg "" then name
      else name +:+ ": " +:+ msg
  end.

(** The properties of [{...v}]. *)
Definition spread (v : JsVal) : list (string * JsVal) :=
  match v with
  | VObj cls props => enumerable cls props
  | VArr l => imap (fun i x => (Str.of_Z (Z.of_nat i), x)) l
  | VStr s =>
      imap (fun i c => (Str.of_Z (Z.of_nat i), VStr (String c EmptyString)))
           (list_ascii_of_string s)
  | _ => []
  end.

End Js.
Export Js.

Notation "'let!' x ':=' c 'in' k" := (bind c (fun x => k))
  (at level 10, x name, c at level 100, k at level 200).

(** ** JSON *)

Module JSON.

(** *** [JSON.stringify] *)

Definition dquote : ascii := ascii_of_N 34.

(** QuoteJSONString, one code unit. *)
Definition quote_char (c : ascii) : string :=
  let n := Str.code c in
  if (n =? 34)%N then String "\" (String dquote EmptyString)
  else if (n =? 92)%N then "\\"
  else if (n =? 8)%N then "\b"
  else if (n =? 9)%N then "\t"
  else if (n =? 10)%N then "\n"
  else if (n =? 12)%N then "\f"
  else if (n =? 13)%N then "\r"
  else if (n <? 32)%N then "\u00" +:+ Str.hex2 n
  else String c EmptyString.

Fixpoint quote_chars (s : string) : string :=
  match s with
  | EmptyString => EmptyString
  | String c r => quote_char c +:+ quote_chars r
  end.

Definition quote (s : string) : string :=
  String dquote (quote_chars s +:+ String dquote EmptyString).

(** [JSON.stringify(v)]; [None] is the [undefined] it returns for
    [undefined]. A property whose value is [undefined] is left out, an
    array element that is [undefined] is written [null]. *)
Fixpoint stringify (v : JsVal) : option string :=
  match v with
  | VUndefined => None
  | VNull => Some "null"
  | VBool true => Some "true"
  | VBool false => Some "false"
  | VNum n => Some (Str.of_Z n)
  | VStr s => Some (quote s)
  | VArr l =>
      Some ("[" +:+ Str.join "," (map (fun e => default "null" (stringify e)) l) +:+ "]")
  | VObj cls props =>
      let members :=
        (fix go (ps : list (string * JsVal)) : list string :=
           match ps with
           | [] => []
           | (k, x) :: rest =>
               match stringify x with
               | Some t =>
                   if is_enumerable cls k
                   then (quote k +:+ ":" +:+ t) :: go rest
                   else go rest
               | None => go rest
               end
           end) props in
      Some ("{" +:+ Str.join "," members +:+ "}")
  end.

(** *** [JSON.parse] *)

(** The result of reading a prefix of the text. [PBeyond]: the text
    read so far is well formed but denotes a value the embedding does
    not have (a number with a fraction or an exponent, a code unit of
    256 or more, a key that is a number) or the reader ran out of
    fuel; nothing is said of such a text. *)
Inductive Parsed (A : Type) :=
| POk (a : A) (rest : string)
| PSyntax
| PBeyond.
Arguments POk {A} a rest.
Arguments PSyntax {A}.
Arguments PBeyond {A}.

Definition pmap {A B} (f : A -> B) (p : Parsed A) : Parsed B :=
  match p with
  | POk a rest => POk (f a) rest
  | PSyntax => PSyntax
  | PBeyond => PBeyond
  end.

(** JSON white space: space, tab, line feed, carriage return. *)
Definition is_ws (c : ascii) : bool :=
  let n := Str.code c in ((n =? 32) || (n =? 9) || (n =? 10) || (n =? 13))%N.

Fixpoint ws (s : string) : string :=
  match s with
  | String c r => if is_ws c then ws r else s
  | EmptyString => EmptyString
  end.

Definition hex_val (c : ascii) : option N :=
  let n := Str.code c in
  if ((48 <=? n) && (n <=? 57))%N then Some (n - 48)%N
  else if ((97 <=? n) && (n <=? 102))%N then Some (n - 87)%N
  else if ((65 <=? n) && (n <=? 70))%N then Some (n - 55)%N
  else None.

(** The code unit of [\uXXXX]. *)
Definition hex4 (a b c d : ascii) : option N :=
  match hex_val a, hex_val b, hex_val c, hex_val d with
  | Some x, Some y, Some z, Some t => Some (((x * 16 + y) * 16 + z) * 16 + t)%N
  | _, _, _, _ => None
  end.

(** The characters of a string literal, after its opening quote. *)
Fixpoint string_body (s : string) : Parsed string :=
  match s with
  | EmptyString => PSyntax
  | String c r =>
      let n := Str.code c in
      if (n =? 34)%N then POk EmptyString r
      else if (n =? 92)%N then
        match r with
        | EmptyString => PSyntax
        | String e r' =>
            let m := Str.code e in
            let simple (x : N) := pmap (String (ascii_of_N x)) (string_body r') in
            if (m =? 34)%N then simple 34%N
            else if (m =? 92)%N then simple 92%N
            else if (m =? 47)%N then simple 47%N
            else if (m =? 98)%N then simple 8%N
            else if (m =? 102)%N then simple 12%N
            else if (m =? 110)%N then simple 10%N
            else if (m =? 114)%N then simple 13%N
            else if (m =? 116)%N then simple 9%N
            else if (m =? 117)%N then
              match r' with
              | String h1 (String h2 (String h3 (String h4 r''))) =>
                  match hex4 h1 h2 h3 h4 with
                  | Some u =>
                      if (u <? 256)%N
                      then pmap (String (ascii_of_N u)) (string_body r'')
                      else PBeyond
                  | None => PSyntax
                  end
              | _ => PSyntax
              end
            else PSyntax
        end
      else if (n <? 32)%N then PSyntax
      else pmap (String c) (string_body r)
  end.

Definition digit_of (c : ascii) : option (Decimal.uint -> Decimal.uint) :=
  let n := Str.code c in
  if (n =? 48)%N then Some Decimal.D0
  else if (n =? 49)%N then Some Decimal.D1
  else if (n =? 50)%N then Some Decimal.D2
  else if (n =? 51)%N then Some Decimal.D3
  else if (n =? 52)%N then Some Decimal.D4
  else if (n =? 53)%N then Some Decimal.D5
  else if (n =? 54)%N then Some Decimal.D6
  else if (n =? 55)%N then Some Decimal.D7
  else if (n =? 56)%N then Some Decimal.D8
  else if (n =? 57)%N then Some Decimal.D9
  else None.

(** The longest run of digits that starts [s], and what follows it. *)
Fixpoint digits (s : string) : Decimal.uint * string :=
  match s with
  | EmptyString => (Decimal.Nil, EmptyString)
  | String c r =>
      match digit_of c with
      | Some d => let '(u, rest) := digits r in (d u, rest)
      | None => (Decimal.Nil, s)
      end
  end.

(** A fraction or an exponent follows. *)
Definition more_number (s : string) : bool :=
  match s with
  | String c _ => let n := Str.code c in ((n =? 46) || (n =? 101) || (n =? 69))%N
  | EmptyString => false
  end.


(** A number: an optional minus, then [0] or a run of digits that does
    not start with [0]. *)
Definition number (s : string) : Parsed Z :=
  let '(neg, s1) :=
    match s with
    | String c r => if (Str.code c =? 45)%N then (true, r) else (false, s)
    | EmptyString => (false, s)
    end in
  let '(u, rest) := digits s1 in
  match u with
  | Decimal.Nil => PSyntax
  | Decimal.D0 (Decimal.D0 _ | Decimal.D1 _ | Decimal.D2 _ | Decimal.D3 _
               | Decimal.D4 _ | Decimal.D5 _ | Decimal.D6 _ | Decimal.D7 _
               | Decimal.D8 _ | Decimal.D9 _) => PSyntax
  | _ =>
      if more_number rest then PBeyond
      else POk (if neg then - Z.of_uint u else Z.of_uint u)%Z rest
  end.

(** A key that is an array index is enumerated before the others,
    whatever its place in the text. *)
Definition numeric_key (k : string) : bool :=
  negb (String.eqb k "") && Str.all_digits k.

Definition literal (word : string) (v : JsVal) (s : string) : Parsed JsVal :=
  if Str.startsWith word s
  then POk v (String.substring (String.length word) (String.length s - String.length word) s)
  else PSyntax.

(** A value, the members of an object after its first key's white
    space, the elements of an array. *)
Fixpoint value (fuel : nat) (s : string) : Parsed JsVal :=
  match fuel with
  | O => PBeyond
  | S fuel' =>
      match ws s with
      | EmptyString => PSyntax
      | String c r =>
          let n := Str.code c in
          if (n =? 123)%N then
            match ws r with
            | String c' r' =>
                if (Str.code c' =? 125)%N then POk (VObj CObject []) r'
                else members fuel' (String c' r') []
            | EmptyString => PSyntax
            end
          else if (n =? 91)%N then
            match ws r with
            | String c' r' =>
                if (Str.code c' =? 93)%N then POk (VArr []) r'
                else elements fuel' (String c' r') []
            | EmptyString => PSyntax
            end
          else if (n =? 34)%N then pmap VStr (string_body r)
          else if (n =? 116)%N then literal "true" (VBool true) (String c r)
          else if (n =? 102)%N then literal "false" (VBool false) (String c r)
          else if (n =? 110)%N then literal "null" VNull (String c r)
          else pmap VNum (number (String c r))
      end
  end
with members (fuel : nat) (s : string) (acc : list (string * JsVal)) : Parsed JsVal :=
  match fuel with
  | O => PBeyond
  | S fuel' =>
      match s with
      | String c r =>
          if (Str.code c =? 34)%N then
            match string_body r with
            | POk k r1 =>
                match ws r1 with
                | String c1 r2 =>
                    if (Str.code c1 =? 58)%N then
                      match value fuel' r2 with
                      | POk x r3 =>
                          if numeric_key k then PBeyond
                          else
                            match ws r3 with
                            | String c3 r4 =>
                                if (Str.code c3 =? 44)%N
                                then members fuel' (ws r4) (assoc_set k x acc)
                                else if (Str.code c3 =? 125)%N
                                then POk (VObj CObject (assoc_set k x acc)) r4
                                else PSyntax
                            | EmptyString => PSyntax
                            end
                      | PSyntax => PSyntax
                      | PBeyond => PBeyond
                      end
                    else PSyntax
                | EmptyString => PSyntax
                end
            | PSyntax => PSyntax
            | PBeyond => PBeyond
            end
          else PSyntax
      | EmptyString => PSyntax
      end
  end
with elements (fuel : nat) (s : string) (acc : list JsVal) : Parsed JsVal :=
  match fuel with
  | O => PBeyond
  | S fuel' =>
      match value fuel' s with
      | POk x r1 =>
          match ws r1 with
          | String c r2 =>
              if (Str.code c =? 44)%N then elements fuel' r2 (acc ++ [x])
              else if (Str.code c =? 93)%N then POk (VArr (acc ++ [x])) r2
              else PSyntax
          | EmptyString => PSyntax
          end
      | PSyntax => PSyntax
      | PBeyond => PBeyond
      end
  end.



(** The values that [JSON.parse] can return in the embedding: no
    [undefined], plain objects only, with distinct keys none of which
    is a number. *)
Fixpoint distinct (l : list string) : bool :=
  match l with
  | [] => true
  | k :: rest => negb (existsb (String.eqb k) rest) && distinct rest
  end.

Fixpoint is_data (v : JsVal) : bool :=
  match v with
  | VUndefined => false
  | VNull | VBool _ | VNum _ | VStr _ => true
  | VArr l => forallb is_data l
  | VObj CObject props =>
      distinct (map fst props)
      && (fix all (ps : list (string * JsVal)) : bool :=
            match ps with
            | [] => true
            | (k, x) :: rest => negb (numeric_key k) && is_data x && all rest
            end) props
  | VObj _ _ => false
  end.


(** The text of a value of JSON, with [null] for [undefined]. *)
Definition text (v : JsVal) : string := default "null" (stringify v).







End JSON.

(** ** The browser and the servers *)

Module Web.

Record Url := { base : string; query : list (string * string) }.

(** A request as [fetch] sends it. The query is kept as the pairs that
    [URLSearchParams] holds, before their percent-encoding. *)
Record Request := {
  url : Url;
  method : string;
  headers : list (string * string);
  body : option string
}.

(** What [fetch] and then [response.json()] give: the promise of
    [fetch] rejects, or a response arrives whose [ok] flag is read and
    whose body [json()] parses or fails to. *)
Inductive FetchOutcome :=
| Rejected (e : JsVal)
| Responded (ok : bool) (json : Completion JsVal).

(** The build settings ([import.meta.env], an unset variable is the
    empty string) and what lies outside the page: the servers, which
    answer a request knowing the earlier ones, and the quota policy of
    Web Storage, which accepts or refuses a write. *)
Record Env := {
  VITE_TIKTOK_APP_ID : string;
  VITE_TIKTOK_APP_SECRET : string;
  VITE_REDIRECT_URI : string;
  VITE_API_BASE_URL : string;
  VITE_API_MODE : string;
  server : list Request -> Request -> FetchOutcome;
  quota : gmap string string -> string -> string -> bool
}.

Record World := {
  sessionStorage : gmap string string;
  localStorage : gmap string string;
  now : Z;
  requests : list Request;
  location : Url
}.

Definition with_sessionStorage (st : gmap string string) (w : World) : World :=
  {| sessionStorage := st; localStorage := localStorage w; now := now w;
     requests := requests w; location := location w |}.

Definition with_localStorage (st : gmap string string) (w : World) : World :=
  {| sessionStorage := sessionStorage w; localStorage := st; now := now w;
     requests := requests w; location := location w |}.


Definition navigate (u : Url) (w : World) : World :=
  {| sessionStorage := sessionStorage w; localStorage := localStorage w; now := now w;
     requests := requests w; location := u |}.

(** [storage.getItem(k)]: [None] is [null]. *)
Definition getItem (k : string) (st : gmap string string) : option string := st !! k.

(** [storage.setItem(k, v)]. *)
Definition setItem (env : Env) (k v : string) (st : gmap string string)
  : Completion (gmap string string) :=
  if quota env st k v then Return (<[k := v]> st) else Throw QuotaExceededError.

(** [storage.removeItem(k)]. *)
Definition removeItem (k : string) (st : gmap string string) : gmap string string :=
  delete k st.

(** [await fetch(...)] followed by [await response.json()] where the
    caller does so: the request is logged and the servers answer. *)
Definition fetch (env : Env) (req : Request) (w : World) : World * FetchOutcome :=
  ({| sessionStorage := sessionStorage w; localStorage := localStorage w; now := now w;
      requests := requests w ++ [req]; location := location w |},
   server env (requests w) req).

End Web.
Export Web.

(** ** [src/utils/constants.ts] *)

Module constants.

Definition OAUTH_CONFIG_authUrl : string := "https://ads.tiktok.com/marketing_api/auth".
Definition OAUTH_CONFIG_tokenUrl : string :=
  "https://business-api.tiktok.com/open_api/v1.3/oauth2/access_token".
Definition OAUTH_CONFIG_scopes : list string :=
  ["user.info.basic"; "video.list"; "ad_management"].

Definition API_ENDPOINTS_createAd : string := "/ad/create".
Definition API_ENDPOINTS_getAdvertiser : string := "/advertiser/info".


Module ERROR_CODES.
Definition INVALID_CLIENT : string := "invalid_client".
Definition INVALID_GRANT : string := "invalid_grant".
Definition EXPIRED_TOKEN : string := "expired_token".
Definition UNAUTHORIZED_CLIENT : string := "unauthorized_client".
Definition INSUFFICIENT_PERMISSIONS : string := "insufficient_permissions".
Definition GEO_RESTRICTED : string := "geo_restricted".
Definition RATE_LIMIT_EXCEEDED : string := "rate_limit_exceeded".
Definition INVALID_MUSIC_ID : string := "invalid_music_id".
Definition MUSIC_NOT_AVAILABLE : string := "music_not_available".
End ERROR_CODES.

End constants.

(** ** [src/services/oauth.ts] *)

Module oauth.
Import constants.

(** [interface OAuthTokens] of [src/types/tiktok.ts]; an optional
    field that is absent is [None]. *)
Record OAuthTokens := {
  accessToken : string;
  refreshToken : option string;
  expires_in : Z;
  timestamp : Z;
  advertiser_id : option string
}.

(** A credential as the object it is at run time, its fields in the
    order of the interface. *)
Definition to_js (t : OAuthTokens) : JsVal :=
  VObj CObject
    ([("accessToken", VStr (accessToken t))]
     ++ match refreshToken t with Some r => [("refreshToken", VStr r)] | None => [] end
     ++ [("expires_in", VNum (expires_in t)); ("timestamp", VNum (timestamp t))]
     ++ match advertiser_id t with Some a => [("advertiser_id", VStr a)] | None => [] end).

Definition optional_string (o : option JsVal) : option (option string) :=
  match o with
  | None | Some VUndefined => Some None
  | Some (VStr s) => Some (Some s)
  | Some _ => None
  end.

(** The value that an unchecked annotation [: OAuthTokens] (which
    admits [null] where the code tests for it) is put on, read at that
    type: [None] when the value is not of the type. *)
Definition of_js (v : JsVal) : option (option OAuthTokens) :=
  match v with
  | VNull => Some None
  | VObj CObject props =>
      match assoc "accessToken" props, assoc "expires_in" props, assoc "timestamp" props,
            optional_string (assoc "refreshToken" props),
            optional_string (assoc "advertiser_id" props) with
      | Some (VStr a), Some (VNum e), Some (VNum t), Some r, Some adv =>
          Some (Some {| accessToken := a; refreshToken := r; expires_in := e;
                        timestamp := t; advertiser_id := adv |})
      | _, _, _, _, _ => None
      end
  | _ => None
  end.

Definition APP_ID (env : Env) : string := VITE_TIKTOK_APP_ID env.
Definition APP_SECRET (env : Env) : string := VITE_TIKTOK_APP_SECRET env.
Definition REDIRECT_URI (env : Env) : string := VITE_REDIRECT_URI env.

(** [generateRandomState]: [bytes] are the 32 bytes that
    [crypto.getRandomValues] writes, each printed as two hexadecimal
    digits. *)
Definition generateRandomState (bytes : list Byte.byte) : string :=
  Str.join "" (map (fun b => Str.hex2 (Byte.to_N b)) bytes).

(** [initiateOAuthFlow]. *)
Definition initiateOAuthFlow (env : Env) (bytes : list Byte.byte) (w : World)
  : World * Completion unit :=
  let state := generateRandomState bytes in
  match setItem env "oauth_state" state (sessionStorage w) with
  | Throw e => (w, Throw e)
  | Return st =>
      let w1 := with_sessionStorage st w in
      let params :=
        [("app_id", APP_ID env); ("state", state); ("redirect_uri", REDIRECT_URI env);
         ("scope", Str.join "," OAUTH_CONFIG_scopes)] in
      let authUrl := {| base := OAUTH_CONFIG_authUrl; query := params |} in
      (navigate authUrl w1, Return tt)
  end.

(** [exchangeCodeForTokens]. *)
Definition exchangeCodeForTokens (env : Env) (code : string) (w : World)
  : World * Completion JsVal :=
  let params := [("app_id", APP_ID env); ("secret", APP_SECRET env); ("auth_code", code)] in
  let req := {| url := {| base := OAUTH_CONFIG_tokenUrl; query := params |};
                method := "POST";
                headers := [("Content-Type", "application/json")];
                body := None |} in
  match fetch env req w with
  | (w1, Rejected e) => (w1, Throw e)
  | (w1, Responded ok (Throw e)) => (w1, Throw e)
  | (w1, Responded ok (Return data)) =>
      (w1,
       let! failed :=
         (if negb ok then Return true
          else let! c := get data "code" in Return (negb (strict_eq_num c 0))) in
       if (failed : bool) then
         let! c := get data "code" in
         let! m := get data "message" in
         let! d := get data "data" in
         let error :=
           VObj CObject
             [("code",
               or_else (match c with
                        | VUndefined | VNull => VUndefined
                        | _ => VStr (toString c)
                        end)
                       (VStr "token_exchange_failed"));
              ("message", or_else m (VStr "Failed to exchange code for tokens"));
              ("data", d)] in
         Throw error
       else get data "data")
  end.



(** The second argument of [setItem] in [storeTokens]: a value that
    [JSON.stringify] maps to [undefined] is stored as that word. *)
Definition stored_text (tokens : JsVal) : string :=
  default "undefined" (JSON.stringify tokens).

(** [storeTokens]: a refused write is caught and logged. *)
Definition storeTokens (env : Env) (tokens : JsVal) (w : World) : World :=
  let text := stored_text tokens in
  match setItem env "tiktok_tokens" text (localStorage w) with
  | Return st => with_localStorage st w
  | Throw _ => w
  end.


(** The error of a state mismatch. *)
Definition csrf_error : JsVal := Error "Invalid state parameter. Possible CSRF attack.".

(** [handleOAuthCallback]: [state !== savedState] compares a string
    with a string or [null]. *)
Definition handleOAuthCallback (env : Env) (code state : string) (w : World)
  : World * Completion JsVal :=
  let savedState := getItem "oauth_state" (sessionStorage w) in
  if negb (match savedState with Some s => String.eqb state s | None => false end)
  then (w, Throw csrf_error)
  else
    let w1 := with_sessionStorage (removeItem "oauth_state" (sessionStorage w)) w in
    match exchangeCodeForTokens env code w1 with
    | (w2, Throw error) => (w2, Throw error)
    | (w2, Return tokens) =>
        let tokensWithTimestamp :=
          VObj CObject (assoc_set "timestamp" (VNum (now w2)) (spread tokens)) in
        let w3 := storeTokens env tokensWithTimestamp w2 in
        (w3, Return tokensWithTimestamp)
    end.

(** [refreshAccessToken]. *)
Definition refreshAccessToken (refreshToken : string) : Completion JsVal :=
  Throw (Error "Token refresh not implemented. Please re-authenticate.").

End oauth.

(** ** [src/utils/errorMessages.ts] *)

Module errorMessages.
Import constants.

Inductive ErrorType :=
| NETWORK_ERROR
| OAUTH_INVALID_CREDENTIALS
| OAUTH_EXPIRED_TOKEN
| OAUTH_MISSING_PERMISSIONS
| OAUTH_GEO_RESTRICTION
| RATE_LIMIT
| MUSIC_INVALID_ID
| MUSIC_NOT_AVAILABLE
| UNKNOWN_ERROR.

(** [interface UserFriendlyError]. The message of the generic
    descriptor is whatever value the server sent as description. *)
Record UserFriendlyError := {
  type : ErrorType;
  title : string;
  message : JsVal;
  action : string;
  canRetry : bool
}.

(** [isApiError], the type guard. *)
Definition isApiError (error : JsVal) : bool :=
  typeof_object error
  && negb (match error with VNull => true | _ => false end)
  && has "code" error
  && has "message" error.

(** [m.includes(arg)]: the method of a string or of an array; any
    other receiver has no such method and the call throws. *)
Definition call_includes (m : JsVal) (arg : string) : Completion bool :=
  match m with
  | VStr s => Return (Str.includes arg s)
  | VArr l => Return (existsb (fun x => strict_eq_str x arg) l)
  | VUndefined => Throw (TypeError "Cannot read properties of undefined (reading 'includes')")
  | VNull => Throw (TypeError "Cannot read properties of null (reading 'includes')")
  | _ => Throw (TypeError "error.message.includes is not a function")
  end.

(** [m.toLowerCase()]: the method of a string only. *)
Definition call_toLowerCase (m : JsVal) : Completion string :=
  match m with
  | VStr s => Return (Str.toLowerCase s)
  | VUndefined => Throw (TypeError "Cannot read properties of undefined (reading 'toLowerCase')")
  | VNull => Throw (TypeError "Cannot read properties of null (reading 'toLowerCase')")
  | _ => Throw (TypeError "error.message.toLowerCase is not a function")
  end.

Definition network_error : UserFriendlyError :=
  {| type := NETWORK_ERROR;
     title := "Connection Error";
     message := VStr "Unable to connect to TikTok servers. Please check your internet connection and try again.";
     action := "Retry";
     canRetry := true |}.

Definition invalid_credentials : UserFriendlyError :=
  {| type := OAUTH_INVALID_CREDENTIALS;
     title := "Invalid Credentials";
     message := VStr "Your TikTok App credentials are invalid. Please check your App ID and Secret in the .env file.";
     action := "Update credentials and reconnect";
     canRetry := false |}.

Definition expired_token : UserFriendlyError :=
  {| type := OAUTH_EXPIRED_TOKEN;
     title := "Session Expired";
     message := VStr "Your TikTok session has expired. Please reconnect your account to continue.";
     action := "Reconnect Account";
     canRetry := true |}.

Definition missing_permissions : UserFriendlyError :=
  {| type := OAUTH_MISSING_PERMISSIONS;
     title := "Missing Permissions";
     message := VStr (String.concat (String JSON.dquote EmptyString)
       ["Your app doesn't have the required permissions. Please ensure ";
        "ad_management"; " and "; "video_management"; " scopes are enabled."]);
     action := "Check app permissions in TikTok Developer Portal";
     canRetry := false |}.

Definition geo_restriction : UserFriendlyError :=
  {| type := OAUTH_GEO_RESTRICTION;
     title := "Region Restricted";
     message := VStr "TikTok Ads API is not available in your region. This service may be restricted to certain countries.";
     action := "Contact TikTok support for availability";
     canRetry := false |}.

Definition rate_limit : UserFriendlyError :=
  {| type := RATE_LIMIT;
     title := "Too Many Requests";
     message := VStr "You've made too many requests. Please wait a moment before trying again.";
     action := "Wait 60 seconds and retry";
     canRetry := true |}.

Definition music_invalid_id : UserFriendlyError :=
  {| type := MUSIC_INVALID_ID;
     title := "Invalid Music ID";
     message := VStr "The music ID you entered doesn't exist in TikTok's library. Please check the ID and try again.";
     action := "Verify music ID";
     canRetry := true |}.

Definition music_not_available : UserFriendlyError :=
  {| type := MUSIC_NOT_AVAILABLE;
     title := "Music Not Available";
     message := VStr "This music is not available for use in ads. Please select a different track.";
     action := "Choose different music";
     canRetry := true |}.

(** The generic descriptor of a structured error:
    [error.data?.description || error.message || "An unexpected ..."]. *)
Definition generic_error (description msg : JsVal) : UserFriendlyError :=
  {| type := UNKNOWN_ERROR;
     title := "Something Went Wrong";
     message := or_else (or_else description msg)
                  (VStr "An unexpected error occurred. Please try again.");
     action := "Retry";
     canRetry := true |}.

Definition unknown_error : UserFriendlyError :=
  {| type := UNKNOWN_ERROR;
     title := "Unexpected Error";
     message := VStr "An unexpected error occurred. Please try again or contact support if the issue persists.";
     action := "Retry";
     canRetry := true |}.

(** [mapApiErrorToUserError]. Both guards read [error.message] and call
    a string method on it. *)
Definition mapApiErrorToUserError (error : JsVal) : Completion UserFriendlyError :=
  let! network :=
    (if instanceof_TypeError error
     then let! m := get error "message" in call_includes m "fetch"
     else Return false) in
  if (network : bool) then Return network_error
  else if isApiError error then
    let! data := get error "data" in
    let errorCode := get_opt data "error_code" in
    let! msg := get error "message" in
    let! errorMessage := call_toLowerCase msg in
    let! code := get error "code" in
    if strict_eq_str code ERROR_CODES.INVALID_CLIENT
       || Str.includes "invalid client" errorMessage
    then Return invalid_credentials
    else if strict_eq_str code ERROR_CODES.INVALID_GRANT
            || strict_eq_str errorCode ERROR_CODES.EXPIRED_TOKEN
    then Return expired_token
    else if strict_eq_str code ERROR_CODES.UNAUTHORIZED_CLIENT
            || strict_eq_str errorCode ERROR_CODES.INSUFFICIENT_PERMISSIONS
    then Return missing_permissions
    else
      let! geo :=
        (if strict_eq_str errorCode ERROR_CODES.GEO_RESTRICTED then Return true
         else call_includes msg "geo") in
      if (geo : bool) then Return geo_restriction
      else if strict_eq_str errorCode ERROR_CODES.RATE_LIMIT_EXCEEDED
              || Str.includes "rate limit" errorMessage
      then Return rate_limit
      else if strict_eq_str errorCode ERROR_CODES.INVALID_MUSIC_ID
              || Str.includes "music" errorMessage
      then Return music_invalid_id
      else if strict_eq_str errorCode ERROR_CODES.MUSIC_NOT_AVAILABLE
      then Return music_not_available
      else Return (generic_error (get_opt data "description") msg)
  else Return unknown_error.

(** [getOAuthFriendlyError], the classifier of the [error] query
    parameter of the redirect. *)
Definition getOAuthFriendlyError (errorCode : string) : UserFriendlyError :=
  if String.eqb errorCode "access_denied" then
    {| type := OAUTH_INVALID_CREDENTIALS;
       title := "Connection Cancelled";
       message := VStr "You cancelled the TikTok connection. That's okay! Click 'Connect TikTok Ads Account' to try again.";
       action := "Click the Connect button above to retry";
       canRetry := true |}
  else if String.eqb errorCode "missing_code" then
    {| type := OAUTH_INVALID_CREDENTIALS;
       title := "Connection Failed";
       message := VStr "We couldn't receive authorization from TikTok. This might be a temporary issue.";
       action := "Please try connecting again";
       canRetry := true |}
  else if String.eqb errorCode "invalid_state" then
    {| type := OAUTH_INVALID_CREDENTIALS;
       title := "Security Check Failed";
       message := VStr "The connection was interrupted for security reasons. Please start fresh.";
       action := "Click Connect TikTok Ads Account to try again";
       canRetry := true |}
  else if String.eqb errorCode "oauth_failed" then
    {| type := OAUTH_INVALID_CREDENTIALS;
       title := "Connection Error";
       message := VStr "Something went wrong while connecting to TikTok. Please try again.";
       action := "Click Connect TikTok Ads Account";
       canRetry := true |}
  else
    {| type := UNKNOWN_ERROR;
       title := "Unexpected Error";
       message := VStr "An unexpected error occurred during connection. Please try again.";
       action := "Click Connect TikTok Ads Account";
       canRetry := true |}.

End errorMessages.

(** ** [src/services/tiktokApi.ts] *)

Module tiktokApi.
Import constants.

Definition API_BASE_URL (env : Env) : string := VITE_API_BASE_URL env.

(** [import.meta.env.VITE_API_MODE || "real"]. *)
Definition API_MODE (env : Env) : string :=
  if String.eqb (VITE_API_MODE env) "" then "real" else VITE_API_MODE env.

(** [isApiError], the type guard (the file has its own copy). *)
Definition isApiError (error : JsVal) : bool :=
  typeof_object error
  && negb (match error with VNull => true | _ => false end)
  && has "code" error
  && has "message" error.

(** The [RequestInit] of the calls of this file. *)
Record RequestInit := {
  init_method : string;
  init_headers : list (string * string);
  init_body : option string
}.


(** The request that [apiRequest] sends. *)
Definition request_of (env : Env) (endpoint accessToken : string) (options : RequestInit)
  : Request :=
  let url := API_BASE_URL env +:+ endpoint in
  let headers :=
    ([("Access-Token", accessToken); ("Content-Type", "application/json")]
     ++ init_headers options)%list in
  {| url := {| base := url; query := [] |};
     method := init_method options;
     headers := headers;
     body := init_body options |}.

(** The error that [apiRequest] throws in place of a [TypeError]. *)
Definition networkError : JsVal :=
  VObj CObject
    [("code", VStr "network_error");
     ("message", VStr "Network request failed. Please check your connection.")].

(** [apiRequest]: the [try] block, then the [catch] clause on what it
    threw. *)
Definition apiRequest (env : Env) (endpoint accessToken : string) (options : RequestInit)
  (w : World) : World * Completion JsVal :=
  let '(w1, outcome) := fetch env (request_of env endpoint accessToken options) w in
  let attempt : Completion JsVal :=
    match outcome with
    | Rejected e => Throw e
    | Responded _ (Throw e) => Throw e
    | Responded _ (Return data) =>
        let! c := get data "code" in
        if negb (strict_eq_num c 0) then
          let! m := get data "message" in
          let! d := get data "data" in
          let error :=
            VObj CObject
              [("code",
                or_else (match c with
                         | VUndefined | VNull => VUndefined
                         | _ => VStr (toString c)
                         end)
                        (VStr "api_error"));
               ("message", or_else m (VStr "API request failed"));
               ("data", d)] in
          Throw error
        else get data "data"
    end in
  (w1,
   match attempt with
   | Return x => Return x
   | Throw error =>
       if isApiError error then Throw error
       else if instanceof_TypeError error then Throw networkError
       else Throw error
   end).





(** [getAdvertiserInfo]; the two fields are what the server sent. *)
Definition getAdvertiserInfo (env : Env) (accessToken : string) (w : World)
  : World * Completion (JsVal * JsVal) :=
  if String.eqb (API_MODE env) "mock"
  then (w, Return (VStr "ADV_1234567890", VStr "Demo Advertiser"))
  else
    let options := {| init_method := "GET"; init_headers := []; init_body := None |} in
    let '(w1, r) := apiRequest env API_ENDPOINTS_getAdvertiser accessToken options w in
    (w1,
     let! data := r in
     let! i := get data "advertiser_id" in
     let! n := get data "advertiser_name" in
     Return (i, n)).

End tiktokApi.

(** ** [src/services/validation.ts] *)

Module validation.

(** [File]: the two properties that the validation reads. *)
Record File := { file_type : string; file_size : Z }.

(** [interface AdFormData]. The unions of string literals are strings
    at run time; an optional field that is absent is [None], and so is
    a file that is [null]. *)
Record AdFormData := {
  campaignName : string;
  objective : string;
  adText : string;
  cta : string;
  musicOption : string;
  musicId : option string;
  uploadedMusicFile : option File
}.

(** [VALIDATION_RULES] and [VALIDATION_ERRORS] as [validateAdForm]
    imports them. The repository has the table in more than one
    version, so it is a parameter: a message, or the [musicId] rule,
    that a version lacks is [None] (reading it gives [undefined]). *)
Record Rules := {
  campaignName_minLength : Z;
  campaignName_maxLength : Z;
  adText_maxLength : Z;
  musicId_pattern : option (string -> bool);
  campaignName_required : string;
  campaignName_minLength_msg : string;
  campaignName_maxLength_msg : option string;
  objective_required : string;
  adText_required : string;
  adText_maxLength_msg : string;
  cta_required : string;
  musicOption_required : string;
  musicOption_invalidForObjective : string;
  musicId_required : string;
  musicId_invalid : option string;
  uploadedMusicFile_required : string;
  uploadedMusicFile_invalidType : option string;
  uploadedMusicFile_tooLarge : option string
}.

(** [/^[0-9]{10,20}$/.test(s)]. *)
Definition ten_to_twenty_digits (s : string) : bool :=
  Str.all_digits s && (10 <=? String.length s)%nat && (String.length s <=? 20)%nat.

(** The tables of [src/utils/constants.ts]. *)
Definition constants_ts : Rules :=
  {| campaignName_minLength := 3;
     campaignName_maxLength := 100;
     adText_maxLength := 100;
     musicId_pattern := None;
     campaignName_required := "Campaign name is required";
     campaignName_minLength_msg := "Campaign name must be at least 3 characters";
     campaignName_maxLength_msg := None;
     objective_required := "Please select a campaign objective";
     adText_required := "Ad text is required";
     adText_maxLength_msg := "Max 100 characters";
     cta_required := "Please select a call-to-action";
     musicOption_required := "Please select a music option";
     musicOption_invalidForObjective := "Music required for Conversions";
     musicId_required := "Music ID is required";
     musicId_invalid := None;
     uploadedMusicFile_required := "Please upload a music file";
     uploadedMusicFile_invalidType := None;
     uploadedMusicFile_tooLarge := None |}.

(** The tables of the other version of the constants file, which has
    the [musicId] pattern and every message. *)
Definition constants_full : Rules :=
  {| campaignName_minLength := 3;
     campaignName_maxLength := 100;
     adText_maxLength := 100;
     musicId_pattern := Some ten_to_twenty_digits;
     campaignName_required := "Campaign name is required";
     campaignName_minLength_msg := "Campaign name must be at least 3 characters";
     campaignName_maxLength_msg := Some "Campaign name must not exceed 100 characters";
     objective_required := "Please select a campaign objective";
     adText_required := "Ad text is required";
     adText_maxLength_msg := "Ad text must not exceed 100 characters";
     cta_required := "Please select a call-to-action";
     musicOption_required := "Please select a music option";
     musicOption_invalidForObjective := "Music is required for Conversions campaigns";
     musicId_required := "Music ID is required";
     musicId_invalid := Some "Music ID must be a 10-20 digit number";
     uploadedMusicFile_required := "Please upload a music file";
     uploadedMusicFile_invalidType := Some "Please upload a valid audio file (MP3, WAV, or M4A)";
     uploadedMusicFile_tooLarge := Some "File size must not exceed 10MB" |}.

(** [FormErrors]: the keys that were assigned, each with the assigned
    value. *)
Abbreviation FormErrors := (gmap string JsVal).

Definition msg (o : option string) : JsVal :=
  match o with
  | Some s => VStr s
  | None => VUndefined
  end.

(** [!s] for a string. *)
Definition falsy (s : string) : bool := String.eqb s "".

Definition len (s : string) : Z := Z.of_nat (String.length s).

(** [validateAdForm]: the statements of the function in their order,
    each on the errors collected so far. The two calls that can throw
    are [formData.musicId.trim()], when the field is absent, and
    [VALIDATION_RULES.musicId.pattern.test], when the table has no
    such rule. *)
Definition validateAdForm (R : Rules) (formData : AdFormData) : Completion FormErrors :=
  let errors : FormErrors := ∅ in
  (* Campaign name validation *)
  let errors :=
    if falsy (Str.trim (campaignName formData))
    then <["campaignName" := VStr (campaignName_required R)]> errors
    else if (len (campaignName formData) <? campaignName_minLength R)%Z
    then <["campaignName" := VStr (campaignName_minLength_msg R)]> errors
    else if (campaignName_maxLength R <? len (campaignName formData))%Z
    then <["campaignName" := msg (campaignName_maxLength_msg R)]> errors
    else errors in
  (* Objective validation *)
  let errors :=
    if falsy (objective formData)
    then <["objective" := VStr (objective_required R)]> errors
    else errors in
  (* Ad text validation *)
  let errors :=
    if falsy (Str.trim (adText formData))
    then <["adText" := VStr (adText_required R)]> errors
    else if (adText_maxLength R <? len (adText formData))%Z
    then <["adText" := VStr (adText_maxLength_msg R)]> errors
    else errors in
  (* CTA validation *)
  let errors :=
    if falsy (cta formData)
    then <["cta" := VStr (cta_required R)]> errors
    else errors in
  (* Music option validation *)
  let errors :=
    if falsy (musicOption formData)
    then <["musicOption" := VStr (musicOption_required R)]> errors
    else errors in
  (* Conditional music validation based on objective *)
  let errors :=
    if String.eqb (objective formData) "CONVERSIONS"
       && String.eqb (musicOption formData) "none"
    then <["musicOption" := VStr (musicOption_invalidForObjective R)]> errors
    else errors in
  (* Music ID validation (when using existing music) *)
  let! errors :=
    (if String.eqb (musicOption formData) "existing" then
       match musicId formData with
       | None => Throw (TypeError "Cannot read properties of undefined (reading 'trim')")
       | Some id =>
           if falsy (Str.trim id)
           then Return (<["musicId" := VStr (musicId_required R)]> errors)
           else
             match musicId_pattern R with
             | None => Throw (TypeError "Cannot read properties of undefined (reading 'pattern')")
             | Some test =>
                 if negb (test id)
                 then Return (<["musicId" := msg (musicId_invalid R)]> errors)
                 else Return errors
             end
       end
     else Return errors) in
  (* File upload validation (when uploading custom music) *)
  let errors :=
    if String.eqb (musicOption formData) "upload" then
      match uploadedMusicFile formData with
      | None => <["uploadedMusicFile" := VStr (uploadedMusicFile_required R)]> errors
      | Some file =>
          let validTypes := ["audio/mpeg"; "audio/wav"; "audio/mp4"; "audio/x-m4a"] in
          let errors :=
            if negb (existsb (String.eqb (file_type file)) validTypes)
            then <["uploadedMusicFile" := msg (uploadedMusicFile_invalidType R)]> errors
            else errors in
          let maxSize := (10 * 1024 * 1024)%Z in
          if (maxSize <? file_size file)%Z
          then <["uploadedMusicFile" := msg (uploadedMusicFile_tooLarge R)]> errors
          else errors
      end
    else errors in
  Return errors.

(** The request [formData] with another objective. *)
Definition with_objective (o : string) (formData : AdFormData) : AdFormData :=
  {| campaignName := campaignName formData; objective := o; adText := adText formData;
     cta := cta formData; musicOption := musicOption formData;
     musicId := musicId formData; uploadedMusicFile := uploadedMusicFile formData |}.

(** The fields other than the objective and the music selection are
    valid: no rule of theirs applies. *)
Definition others_valid (R : Rules) (formData : AdFormData) : Prop :=
  Str.trim (campaignName formData) <> ""
  /\ (campaignName_minLength R <= len (campaignName formData) <= campaignName_maxLength R)%Z
  /\ Str.trim (adText formData) <> ""
  /\ (len (adText formData) <= adText_maxLength R)%Z
  /\ cta formData <> "".

(** [hasErrors]. *)
Definition hasErrors (errors : FormErrors) : bool := (0 <? size errors)%nat.

End validation.

(** ** Concrete settings for the examples *)

Module scenario.
Import oauth.

(** A server that answers every request with a successful envelope
    carrying a credential without time stamp, and a storage without
    quota. *)
Definition granted : JsVal :=
  VObj CObject
    [("code", VNum 0); ("message", VStr "OK");
     ("data", VObj CObject [("accessToken", VStr "tok"); ("expires_in", VNum 7200)])].

Definition env0 : Env :=
  {| VITE_TIKTOK_APP_ID := "app";
     VITE_TIKTOK_APP_SECRET := "secret";
     VITE_REDIRECT_URI := "http://localhost:5173/auth/callback";
     VITE_API_BASE_URL := "https://api.example";
     VITE_API_MODE := "real";
     server := fun _ _ => Responded true (Return granted);
     quota := fun _ _ _ => true |}.


(** A fresh page at time 1000000 ms. *)
Definition w0 : World :=
  {| sessionStorage := ∅; localStorage := ∅; now := 1000000;
     requests := []; location := {| base := "http://localhost:5173/"; query := [] |} |}.

(** Thirty-two bytes of entropy, and the page after [initiateOAuthFlow]
    with them. *)
Definition bytes0 : list Byte.byte := repeat Byte.xab 32.
Definition S0 : string := generateRandomState bytes0.
Definition w_issued : World := fst (initiateOAuthFlow env0 bytes0 w0).





(** A server that is not reached, one that answers with a protocol
    error, and the same page in mock mode. *)
Definition env_with (mode : string) (answer : FetchOutcome) : Env :=
  {| VITE_TIKTOK_APP_ID := "app";
     VITE_TIKTOK_APP_SECRET := "secret";
     VITE_REDIRECT_URI := "http://localhost:5173/auth/callback";
     VITE_API_BASE_URL := "https://api.example";
     VITE_API_MODE := mode;
     server := fun _ _ => answer;
     quota := fun _ _ _ => true |}.





Definition env_odd_message : Env :=
  env_with "real"
    (Responded true
       (Return (VObj CObject [("code", VNum 40001); ("message", VNum 42)]))).


(** A request with every field valid and no music, and one that uses
    existing music without giving its identifier. *)
Definition form_no_music : validation.AdFormData :=
  {| validation.campaignName := "Summer Sale";
     validation.objective := "CONVERSIONS";
     validation.adText := "Buy now";
     validation.cta := "LEARN_MORE";
     validation.musicOption := "none";
     validation.musicId := None;
     validation.uploadedMusicFile := None |}.

Definition form_missing_id : validation.AdFormData :=
  {| validation.campaignName := "Summer Sale";
     validation.objective := "TRAFFIC";
     validation.adText := "Buy now";
     validation.cta := "LEARN_MORE";
     validation.musicOption := "existing";
     validation.musicId := None;
     validation.uploadedMusicFile := None |}.

Definition form_missing_file : validation.AdFormData :=
  {| validation.campaignName := "Summer Sale";
     validation.objective := "TRAFFIC";
     validation.adText := "Buy now";
     validation.cta := "LEARN_MORE";
     validation.musicOption := "upload";
     validation.musicId := None;
     validation.uploadedMusicFile := None |}.

Definition form_with_id : validation.AdFormData :=
  {| validation.campaignName := "Summer Sale";
     validation.objective := "TRAFFIC";
     validation.adText := "Buy now";
     validation.cta := "LEARN_MORE";
     validation.musicOption := "existing";
     validation.musicId := Some "1234567890123456";
     validation.uploadedMusicFile := None |}.

End scenario.

(** * Properties *)

(** ** Strings and numbers read back from their JSON text *)














(** Evaluates the comparisons between constants that occur in the goal. *)
Ltac closed_tests :=
  repeat match goal with
    | |- context [N.eqb ?a ?b] =>
        let v := eval vm_compute in (N.eqb a b) in
        lazymatch v with true => idtac | false => idtac end;
        change (N.eqb a b) with v
    | |- context [JSON.is_ws ?c] =>
        let v := eval vm_compute in (JSON.is_ws c) in
        lazymatch v with true => idtac | false => idtac end;
        change (JSON.is_ws c) with v
    | |- context [JSON.digit_of ?c] =>
        let v := eval vm_compute in (JSON.digit_of c) in
        lazymatch v with Some _ => idtac | None => idtac end;
        change (JSON.digit_of c) with v
    end;
  cbv beta iota.









Lemma value_S (fuel' : nat) (s : string) :
  JSON.value (S fuel') s =
  match JSON.ws s with
  | EmptyString => JSON.PSyntax
  | String c r =>
      let n := Str.code c in
      if (n =? 123)%N then
        match JSON.ws r with
        | String c' r' =>
            if (Str.code c' =? 125)%N then JSON.POk (VObj CObject []) r'
            else JSON.members fuel' (String c' r') []
        | EmptyString => JSON.PSyntax
        end
      else if (n =? 91)%N then
        match JSON.ws r with
        | String c' r' =>
            if (Str.code c' =? 93)%N then JSON.POk (VArr []) r'
            else JSON.elements fuel' (String c' r') []
        | EmptyString => JSON.PSyntax
        end
      else if (n =? 34)%N then JSON.pmap VStr (JSON.string_body r)
      else if (n =? 116)%N then JSON.literal "true" (VBool true) (String c r)
      else if (n =? 102)%N then JSON.literal "false" (VBool false) (String c r)
      else if (n =? 110)%N then JSON.literal "null" VNull (String c r)
      else JSON.pmap VNum (JSON.number (String c r))
  end.
Proof. reflexivity. Qed.


Lemma ws_cons (c : ascii) (r : string) :
  JSON.ws (String c r) = if JSON.is_ws c then JSON.ws r else String c r.
Proof. reflexivity. Qed.






(** An object whose text starts with a key. *)
Lemma value_object (f : nat) (rest : string) :
  JSON.value (S f) (String "{" (String JSON.dquote rest)) =
  JSON.members f (String JSON.dquote rest) [].
Proof.
  rewrite value_S, ws_cons. closed_tests.
  cbv zeta. closed_tests. rewrite ws_cons. change (JSON.is_ws JSON.dquote) with false.
  cbv beta iota. change (Str.code JSON.dquote) with 34%N. closed_tests. reflexivity.
Qed.


(** ** Every value of JSON reads back from its text *)





































Import oauth.

(** ** The credential store *)

(** A credential is a value of JSON, and is of its own type. *)
Lemma is_data_to_js (c : OAuthTokens) : JSON.is_data (to_js c) = true.
Proof. destruct c as [a [r|] e t [adv|]]; reflexivity. Qed.

Lemma of_js_to_js (c : OAuthTokens) : of_js (to_js c) = Some (Some c).
Proof. destruct c as [a [r|] e t [adv|]]; reflexivity. Qed.








(** ** The validity of a credential *)



(** ** The callback *)

Section Callback.

Context (env : Env).

Lemma sessionStorage_exchange code w :
  sessionStorage (fst (exchangeCodeForTokens env code w)) = sessionStorage w.
Proof.
  unfold exchangeCodeForTokens, fetch.
  destruct (server env (requests w) _) as [e|ok [data|e]]; reflexivity.
Qed.

Lemma sessionStorage_storeTokens v w :
  sessionStorage (storeTokens env v w) = sessionStorage w.
Proof. unfold storeTokens. destruct setItem; reflexivity. Qed.

(** A call whose state is not the stored one fails at once. *)
Lemma callback_mismatch code state w :
  getItem "oauth_state" (sessionStorage w) <> Some state ->
  handleOAuthCallback env code state w = (w, Throw csrf_error).
Proof.
  intros H. unfold handleOAuthCallback.
  destruct (getItem "oauth_state" (sessionStorage w)) as [s|]; [|reflexivity].
  destruct (String.eqb_spec state s) as [->|]; [congruence | reflexivity].
Qed.

(** A call whose state is the stored one removes it. *)
Lemma callback_match code state w :
  getItem "oauth_state" (sessionStorage w) = Some state ->
  sessionStorage (fst (handleOAuthCallback env code state w))
  = removeItem "oauth_state" (sessionStorage w).
Proof.
  intros H. unfold handleOAuthCallback. rewrite H, String.eqb_refl. cbn [negb].
  pose proof (sessionStorage_exchange code
    (with_sessionStorage (removeItem "oauth_state" (sessionStorage w)) w)) as Hx.
  destruct exchangeCodeForTokens as [w2 [tokens|e]]; cbn [fst] in *.
  - now rewrite sessionStorage_storeTokens.
  - exact Hx.
Qed.

(** C2. A callback whose state differs from the stored anti-forgery
    token (or that finds none stored) fails with the CSRF error and
    changes nothing: no request is sent, so no exchange is attempted,
    and no credential is written. *)
Theorem callback_csrf (code state : string) (w : World) :
  getItem "oauth_state" (sessionStorage w) <> Some state ->
  handleOAuthCallback env code state w = (w, Throw csrf_error)
  /\ requests (fst (handleOAuthCallback env code state w)) = requests w
  /\ localStorage (fst (handleOAuthCallback env code state w)) = localStorage w.
Proof.
  intros H. rewrite (callback_mismatch code state w H). repeat split.
Qed.

(** C1, as amended. The check is one-shot on a match: a callback whose
    state is the stored token removes the token before the exchange, so
    that every later callback, with the same state or another, fails
    with the CSRF error; a callback whose state is not the stored token
    fails and leaves the session storage as it is. *)
Theorem callback_one_shot (code state : string) (w : World) :
  let w1 := fst (handleOAuthCallback env code state w) in
  (getItem "oauth_state" (sessionStorage w) = Some state ->
   getItem "oauth_state" (sessionStorage w1) = None
   /\ forall code' state', handleOAuthCallback env code' state' w1 = (w1, Throw csrf_error))
  /\ (getItem "oauth_state" (sessionStorage w) <> Some state ->
      sessionStorage w1 = sessionStorage w).
Proof.
  intros w1. split.
  - intros H.
    assert (Hgone : getItem "oauth_state" (sessionStorage w1) = None).
    { subst w1. rewrite (callback_match code state w H).
      unfold getItem, removeItem. apply lookup_delete_eq. }
    split; [exact Hgone|].
    intros code' state'. apply callback_mismatch. now rewrite Hgone.
  - intros H. subst w1. now rewrite (callback_mismatch code state w H).
Qed.

End Callback.

Lemma callback_csrf_witness :
  handleOAuthCallback scenario.env0 "abc" "wrong" scenario.w_issued
  = (scenario.w_issued, Throw csrf_error).
Proof.
  apply (callback_csrf scenario.env0 "abc" "wrong" scenario.w_issued).
  vm_compute. discriminate.
Defined.

Lemma callback_one_shot_witness :
  let w1 := fst (handleOAuthCallback scenario.env0 "abc" scenario.S0 scenario.w_issued) in
  getItem "oauth_state" (sessionStorage w1) = None
  /\ handleOAuthCallback scenario.env0 "abc" scenario.S0 w1 = (w1, Throw csrf_error).
Proof.
  destruct (proj1 (callback_one_shot scenario.env0 "abc" scenario.S0 scenario.w_issued)
              eq_refl) as [H1 H2].
  split; [exact H1 | exact (H2 "abc" scenario.S0)].
Defined.

(** C1 as stated fails: after [initiateOAuthFlow], a callback with a
    wrong state leaves the token stored, and a second callback with the
    right state passes the check (here it goes on to the exchange and
    returns the credential). *)
Lemma callback_one_shot_counterexample :
  let w1 := fst (handleOAuthCallback scenario.env0 "abc" "wrong" scenario.w_issued) in
  getItem "oauth_state" (sessionStorage w1) = Some scenario.S0
  /\ snd (handleOAuthCallback scenario.env0 "abc" scenario.S0 w1)
     = Return (VObj CObject [("accessToken", VStr "tok"); ("expires_in", VNum 7200);
                             ("timestamp", VNum 1000000)])
  /\ length (requests (fst (handleOAuthCallback scenario.env0 "abc" scenario.S0 w1))) = 1.
Proof. vm_compute. repeat split. Qed.

(** ** The error classifier *)

Import errorMessages.

(** C5, as amended. A [TypeError] whose message is a string that
    contains [fetch] is classified as the network error, which is
    retryable; a [TypeError] whose message is a string without [fetch],
    and that has no [code], is classified as the unexpected error. *)
Theorem classify_TypeError (error : JsVal) (m : string) :
  instanceof_TypeError error = true ->
  get error "message" = Return (VStr m) ->
  (Str.includes "fetch" m = true ->
   mapApiErrorToUserError error = Return network_error
   /\ type network_error = NETWORK_ERROR /\ canRetry network_error = true)
  /\ (Str.includes "fetch" m = false -> has "code" error = false ->
      mapApiErrorToUserError error = Return unknown_error).
Proof.
  intros Hi Hm. unfold mapApiErrorToUserError. rewrite Hi, Hm. cbn [bind call_includes].
  split.
  - intros ->. repeat split.
  - intros -> Hc. unfold isApiError. rewrite Hc.
    now rewrite andb_false_r.
Qed.

Lemma classify_TypeError_witness :
  mapApiErrorToUserError (TypeError "Failed to fetch") = Return network_error.
Proof.
  apply (proj1 (classify_TypeError (TypeError "Failed to fetch") "Failed to fetch"
                  eq_refl eq_refl)).
  vm_compute. reflexivity.
Defined.

(** C5 as stated fails: the [TypeError] that a browser raises with the
    message [Load failed] when no response is reached is classified as
    the unexpected error. *)
Lemma classify_TypeError_counterexample :
  instanceof_TypeError (TypeError "Load failed") = true
  /\ mapApiErrorToUserError (TypeError "Load failed") = Return unknown_error
  /\ type unknown_error <> NETWORK_ERROR.
Proof. repeat split. discriminate. Qed.

(** C4 fails on the code: an object that has [code] and [message] passes
    the type guard whatever its [message] is, and then
    [error.message.toLowerCase()] throws when the message is not a
    string. Such an object is what [apiRequest] throws, and [createAd]
    hands to the classifier, when a server answers with the envelope
    [{code: 40001, message: 42}]. A [TypeError] instance whose message
    is not a string makes the first guard throw. *)
Theorem classify_throws :
  let error := VObj CObject [("code", VStr "40001"); ("message", VNum 42);
                             ("data", VUndefined)] in
  snd (tiktokApi.apiRequest scenario.env_odd_message constants.API_ENDPOINTS_createAd
         "token" {| tiktokApi.init_method := "POST"; tiktokApi.init_headers := [];
                    tiktokApi.init_body := None |} scenario.w0)
    = Throw error
  /\ isApiError error = true
  /\ mapApiErrorToUserError error
     = Throw (TypeError "error.message.toLowerCase is not a function")
  /\ mapApiErrorToUserError (VObj CObject [("code", VNum 1); ("message", VNull)])
     = Throw (TypeError "Cannot read properties of null (reading 'toLowerCase')")
  /\ mapApiErrorToUserError (VObj CTypeError [("message", VNum 42)])
     = Throw (TypeError "error.message.includes is not a function").
Proof. repeat split. Qed.

(** The classifier returns a descriptor for every value whose
    [message], when it can be read, is a string. *)
Lemma classify_total (error : JsVal) :
  (forall m, get error "message" = Return m -> exists s, m = VStr s) ->
  exists d, mapApiErrorToUserError error = Return d.
Proof.
  intros Hm.
  destruct error as [| |b|n|s|l|cls props]; try (eexists; reflexivity).
  assert (Hg : forall k, exists x, get (VObj cls props) k = Return x).
  { intros k. cbn. destruct (assoc k props); [eauto|]. destruct (inherited cls k); eauto. }
  destruct (Hg "message") as [m Hgm]. destruct (Hm m Hgm) as [s ->].
  destruct (Hg "data") as [d Hd]. destruct (Hg "code") as [c Hc].
  unfold mapApiErrorToUserError. rewrite Hgm, Hd, Hc.
  cbn [bind call_toLowerCase call_includes].
  destruct (instanceof_TypeError (VObj cls props)); cbn [bind call_includes];
    repeat (match goal with |- context [if ?b then _ else _] => destruct b end;
            cbn [bind call_includes]);
    eauto.
Qed.

(** ** The remote gateway *)

Import tiktokApi.

(** What [apiRequest] throws is an [ApiError] or is not a [TypeError]. *)
Lemma apiRequest_throws env endpoint accessToken options w e :
  snd (apiRequest env endpoint accessToken options w) = Throw e ->
  tiktokApi.isApiError e = true \/ instanceof_TypeError e = false.
Proof.
  unfold apiRequest, fetch. cbn [snd].
  match goal with |- context [match ?a with Return _ => _ | Throw _ => _ end] =>
    destruct a as [x|err] end; [discriminate|].
  destruct (tiktokApi.isApiError err) eqn:Ha.
  - intros [= <-]. now left.
  - destruct (instanceof_TypeError err) eqn:Hi.
    + intros [= <-]. now left.
    + intros [= <-]. now right.
Qed.




(** ** The form validation *)

Import validation.

Lemma falsy_false (s : string) : s <> "" -> falsy s = false.
Proof. intros H. unfold falsy. now destruct (String.eqb_spec s ""). Qed.

(** C7. A request without music has the objective-specific error on
    [musicOption] when its objective is Conversions, in the place of
    any other error on that field, and no error on [musicOption] when
    its objective is Traffic; when its other fields are valid, that
    error is the only one, and the Traffic request has none. *)
Theorem validate_no_music (R : Rules) (formData : AdFormData) :
  musicOption formData = "none" ->
  (exists errors,
      validateAdForm R (with_objective "CONVERSIONS" formData) = Return errors
      /\ errors !! "musicOption" = Some (VStr (musicOption_invalidForObjective R)))
  /\ (exists errors,
      validateAdForm R (with_objective "TRAFFIC" formData) = Return errors
      /\ errors !! "musicOption" = None)
  /\ (others_valid R formData ->
      validateAdForm R (with_objective "CONVERSIONS" formData)
        = Return {["musicOption" := VStr (musicOption_invalidForObjective R)]}
      /\ validateAdForm R (with_objective "TRAFFIC" formData) = Return ∅).
Proof.
  intros Hnone.
  assert (Hgen : forall o, o <> "" ->
    validateAdForm R (with_objective o formData) =
    Return
      (let errors : FormErrors := ∅ in
       let errors :=
         if falsy (Str.trim (campaignName formData))
         then <["campaignName" := VStr (campaignName_required R)]> errors
         else if (len (campaignName formData) <? campaignName_minLength R)%Z
         then <["campaignName" := VStr (campaignName_minLength_msg R)]> errors
         else if (campaignName_maxLength R <? len (campaignName formData))%Z
         then <["campaignName" := msg (campaignName_maxLength_msg R)]> errors
         else errors in
       let errors :=
         if falsy (Str.trim (adText formData))
         then <["adText" := VStr (adText_required R)]> errors
         else if (adText_maxLength R <? len (adText formData))%Z
         then <["adText" := VStr (adText_maxLength_msg R)]> errors
         else errors in
       let errors :=
         if falsy (cta formData)
         then <["cta" := VStr (cta_required R)]> errors
         else errors in
       if String.eqb o "CONVERSIONS"
       then <["musicOption" := VStr (musicOption_invalidForObjective R)]> errors
       else errors)).
  { intros o Ho. unfold validateAdForm.
    cbn [with_objective campaignName objective adText cta musicOption musicId
         uploadedMusicFile].
    rewrite Hnone, (falsy_false o Ho).
    change (falsy "none") with false.
    change (String.eqb "none" "none") with true.
    change (String.eqb "none" "existing") with false.
    change (String.eqb "none" "upload") with false.
    rewrite andb_true_r. reflexivity. }
  split; [|split].
  - eexists. split; [apply Hgen; discriminate|].
    cbv zeta. change (String.eqb "CONVERSIONS" "CONVERSIONS") with true. cbv iota.
    apply lookup_insert_eq.
  - eexists. split; [apply Hgen; discriminate|].
    cbv zeta. change (String.eqb "TRAFFIC" "CONVERSIONS") with false. cbv iota.
    repeat match goal with |- context [if ?b then _ else _] => destruct b end;
      repeat (rewrite lookup_insert_ne by discriminate); apply lookup_empty.
  - intros (Hc & Hcl & Ha & Hal & Hcta).
    rewrite !Hgen by discriminate. cbv zeta.
    rewrite (falsy_false _ Hc), (falsy_false _ Ha), (falsy_false _ Hcta).
    destruct (Z.ltb_spec (len (campaignName formData)) (campaignName_minLength R)); [lia|].
    destruct (Z.ltb_spec (campaignName_maxLength R) (len (campaignName formData))); [lia|].
    destruct (Z.ltb_spec (adText_maxLength R) (len (adText formData))); [lia|].
    split; reflexivity.
Qed.

Lemma validate_no_music_witness :
  validateAdForm constants_full (with_objective "CONVERSIONS" scenario.form_no_music)
    = Return {["musicOption" := VStr "Music is required for Conversions campaigns"]}
  /\ validateAdForm constants_full (with_objective "TRAFFIC" scenario.form_no_music)
    = Return ∅.
Proof.
  apply (proj2 (proj2 (validate_no_music constants_full scenario.form_no_music eq_refl))).
  vm_compute. repeat split; (discriminate || (intros H; discriminate H)).
Defined.

(** C8 fails on the code: with existing music selected and no music
    identifier in the request, [formData.musicId.trim()] throws,
    whatever the tables; the sibling check of the uploaded file tests
    for absence first and returns its error as a value. With the
    tables of [src/utils/constants.ts], which have no rule for the
    music identifier, a request that gives one throws as well. *)
Theorem validate_throws (R : Rules) :
  validateAdForm R scenario.form_missing_id
    = Throw (TypeError "Cannot read properties of undefined (reading 'trim')")
  /\ validateAdForm constants_full scenario.form_missing_file
    = Return {["uploadedMusicFile" := VStr "Please upload a music file"]}
  /\ validateAdForm constants_ts scenario.form_with_id
    = Throw (TypeError "Cannot read properties of undefined (reading 'pattern')")
  /\ validateAdForm constants_full scenario.form_with_id = Return ∅.
Proof. repeat split. Qed.

(** The validation returns its errors as a value for every request
    that does not select existing music, and for every request that
    selects it and gives a music identifier, when the tables have the
    rule for it. *)
Lemma validate_returns (R : Rules) (formData : AdFormData) :
  musicOption formData <> "existing"
  \/ (is_Some (musicId formData) /\ is_Some (musicId_pattern R)) ->
  exists errors, validateAdForm R formData = Return errors.
Proof.
  intros H. unfold validateAdForm.
  destruct (String.eqb_spec (musicOption formData) "existing") as [He|Hne].
  - destruct H as [H|[[id Hid] [test Ht]]]; [congruence|].
    rewrite Hid, Ht. cbv zeta.
    destruct (falsy (Str.trim id)); cbn [bind]; [eauto|].
    destruct (test id); cbn [negb bind]; eauto.
  - cbv zeta. cbn [bind]. eauto.
Qed.
